(** * The PDF report paginator of [app.py]

    A shallow embedding of [pdf_watermark], [pdf_footer] and
    [build_pdf_report], and the properties of the pagination they implement.

    Python floats are IEEE binary64 numbers: they are embedded as Rocq's
    primitive floats, so every cursor position below is the very number the
    program computes.  A Python [str] is a sequence of code points: it is
    embedded as a list of code points, so that [len] and slicing count
    characters, not bytes. *)

From Stdlib Require Import String Ascii NArith ZArith.
From Stdlib Require Import SpecFloat FloatOps FloatAxioms.
From Stdlib Require Import PrimFloat List Arith Lia.
Import ListNotations.

Set Warnings "-inexact-float".

(** ** Python values *)

Definition char := N.
Definition str := list char.

(** An ASCII literal of the source as a [str]. *)
Definition lit (s : string) : str :=
  map N_of_ascii (list_ascii_of_string s).

(** U+2022, the bullet glyph. *)
Definition bullet_glyph : char := 8226%N.

(** [range(start, stop, step)] for a positive step (a zero step raises
    ValueError in Python; the program only uses step 110). *)
Definition range (start stop step : nat) : list nat :=
  match step with
  | 0 => []
  | _ => map (fun k => start + k * step) (seq 0 ((stop - start + step - 1) / step))
  end.

(** [text[i:j]] for indices [0 <= i <= j]; Python clamps both to [len text]. *)
Definition slice {A : Type} (text : list A) (i j : nat) : list A :=
  firstn (j - i) (skipn i text).

(** ** ReportLab

    The canvas of [reportlab.pdfgen] is the library's, not the program's: it
    is modelled as a recorder of the calls made on it, page by page.
    [showPage] closes the current page; [save] closes the current page when
    something was drawn on it and ends the document. *)
Module ReportLab.

#[local] Open Scope float_scope.

(** [reportlab.lib.units.inch] and [reportlab.lib.pagesizes.letter]. *)
Definition inch : float := 72.0.
Definition letter : float * float := (8.5 * inch, 11 * inch).

Record Color := mkColor { red : float; green : float; blue : float; alpha : float }.

Inductive op :=
| SaveState
| RestoreState
| SetFillColor (col : Color)
| SetFont (name : string) (size : float)
| Translate (dx dy : float)
| Rotate (theta : float)
| DrawCentredString (x y : float) (text : str)
| DrawString (x y : float) (text : str)
| DrawRightString (x y : float) (text : str).

Definition page := list op.
Definition document := list page.

(** The canvas, and with it the number of times the clock was read. *)
Record world := mkWorld {
  pages : list page;   (* the pages closed by showPage, oldest first *)
  code : page;         (* the calls recorded on the current page *)
  reads : nat          (* calls of datetime.now() so far *)
}.

Definition Canvas : world := mkWorld [] [] 0.

End ReportLab.
Import ReportLab.

(** ** A state monad for the drawing calls *)

Definition Draw (A : Type) : Type := world -> A * world.

Definition ret {A} (a : A) : Draw A := fun w => (a, w).

Definition bind {A B} (m : Draw A) (k : A -> Draw B) : Draw B :=
  fun w => let (a, w') := m w in k a w'.

Declare Scope draw_scope.
Delimit Scope draw_scope with draw.
Notation "x <- m ;; k" := (bind m (fun x => k))
  (at level 61, m at next level, right associativity) : draw_scope.
Notation "m ;; k" := (bind m (fun _ => k))
  (at level 61, right associativity) : draw_scope.
Open Scope draw_scope.

Definition exec {A} (m : Draw A) (w : world) : world := snd (m w).
Definition eval {A} (m : Draw A) (w : world) : A := fst (m w).

(** [for x in xs: s = body(s, x)]: a loop that threads the local variable
    [s] (the cursor [y]) through the drawing calls of its body. *)
Fixpoint for_each {A S : Type} (xs : list A) (s : S) (body : S -> A -> Draw S)
  : Draw S :=
  match xs with
  | [] => ret s
  | x :: xs' => s' <- body s x ;; for_each xs' s' body
  end.

Definition emit (o : op) : Draw unit :=
  fun w => (tt, mkWorld (pages w) (code w ++ [o]) (reads w)).

Definition saveState : Draw unit := emit SaveState.
Definition restoreState : Draw unit := emit RestoreState.
Definition setFillColor (col : Color) : Draw unit := emit (SetFillColor col).
Definition setFont (name : string) (size : float) : Draw unit := emit (SetFont name size).
Definition translate (dx dy : float) : Draw unit := emit (Translate dx dy).
Definition rotate (theta : float) : Draw unit := emit (Rotate theta).
Definition drawCentredString (x y : float) (text : str) : Draw unit :=
  emit (DrawCentredString x y text).
Definition drawString (x y : float) (text : str) : Draw unit :=
  emit (DrawString x y text).
Definition drawRightString (x y : float) (text : str) : Draw unit :=
  emit (DrawRightString x y text).

Definition showPage : Draw unit :=
  fun w => (tt, mkWorld (pages w ++ [code w]) [] (reads w)).

Definition save : Draw document :=
  fun w =>
    match code w with
    | [] => (pages w, w)
    | _ :: _ => let w' := exec showPage w in (pages w', w')
    end.

(** ** The program *)

Section Report.

Open Scope float_scope.

(** [clock k] is what [datetime.now().strftime("%Y-%m-%d %H:%M")] returns
    at its [k]-th call of the run. *)
Variable clock : nat -> str.

Definition now_strftime : Draw str :=
  fun w => (clock (reads w), mkWorld (pages w) (code w) (S (reads w))).

Definition pdf_watermark (text : str) (page_w page_h : float) : Draw unit :=
  saveState ;;
  setFillColor (mkColor 0.65 0.75 0.95 0.12) ;;
  setFont "Helvetica-Bold" 36 ;;
  translate (page_w / 2) (page_h / 2) ;;
  rotate 30 ;;
  drawCentredString 0 0 text ;;
  restoreState.

Definition pdf_footer (text : str) (page_w page_h : float) : Draw unit :=
  saveState ;;
  setFillColor (mkColor 0.7 0.75 0.9 0.55) ;;
  setFont "Helvetica" 9 ;;
  drawString (0.7 * inch) (0.45 * inch) text ;;
  stamp <- now_strftime ;;
  drawRightString (page_w - 0.7 * inch) (0.45 * inch) stamp ;;
  restoreState.

Definition page_w : float := fst letter.
Definition page_h : float := snd letter.
Definition margin_x : float := 0.7 * inch.

Definition new_page : Draw unit := showPage.

Definition subtitle : str :=
  lit "Pilot Proposal " ++ [bullet_glyph] ++ lit " Six Sigma Black Belt format "
    ++ [bullet_glyph] ++ lit " DMAIC governed".

Definition max_chars : nat := 110.

(** [f"• {b}"] *)
Definition bullet_text (b : str) : str := bullet_glyph :: 32%N :: b.

(** [[text[i:i+max_chars] for i in range(0, len(text), max_chars)]] *)
Definition wrap (text : str) : list str :=
  map (fun i => slice text i (i + max_chars)) (range 0 (length text) max_chars).

(** The body of [for line in lines]. *)
Definition draw_line (y : float) (line : str) : Draw float :=
  drawString margin_x y line ;;
  ret (y - 0.18 * inch).

(** The body of [for b in bullets]. *)
Definition draw_bullet (watermark_text : str) (y : float) (b : str) : Draw float :=
  y <- (if y <? 1.1 * inch then
          pdf_footer watermark_text page_w page_h ;;
          new_page ;;
          let y := page_h - 0.9 * inch in
          pdf_watermark watermark_text page_w page_h ;;
          setFont "Helvetica" 10 ;;
          ret y
        else ret y) ;;
  let text := bullet_text b in
  let lines := wrap text in
  for_each lines y draw_line.

(** The body of [for heading, bullets in sections]. *)
Definition draw_section (watermark_text : str) (y : float)
    (section : str * list str) : Draw float :=
  let (heading, bullets) := section in
  y <- (if y <? 1.3 * inch then
          pdf_footer watermark_text page_w page_h ;;
          new_page ;;
          let y := page_h - 0.9 * inch in
          pdf_watermark watermark_text page_w page_h ;;
          ret y
        else ret y) ;;
  setFont "Helvetica-Bold" 12 ;;
  drawString margin_x y heading ;;
  let y := y - 0.22 * inch in
  setFont "Helvetica" 10 ;;
  y <- for_each bullets y (draw_bullet watermark_text) ;;
  ret (y - 0.12 * inch).

Definition report (title : str) (sections : list (str * list str))
    (watermark_text : str) : Draw document :=
  let y := page_h - 0.9 * inch in
  (* PAGE 1 *)
  pdf_watermark watermark_text page_w page_h ;;
  setFillColor (mkColor 0.9 0.95 1.0 1) ;;
  setFont "Helvetica-Bold" 18 ;;
  drawString margin_x y title ;;
  let y := y - 0.35 * inch in
  setFont "Helvetica" 10 ;;
  setFillColor (mkColor 0.8 0.85 0.95 1) ;;
  drawString margin_x y subtitle ;;
  let y := y - 0.30 * inch in
  setFillColor (mkColor 0.95 0.98 1.0 1) ;;
  _ <- for_each sections y (draw_section watermark_text) ;;
  pdf_footer watermark_text page_w page_h ;;
  save.

(** [build_pdf_report]: the document recorded on a fresh canvas. *)
Definition build_pdf_report (title : str) (sections : list (str * list str))
    (watermark_text : str) : document :=
  eval (report title sections watermark_text) Canvas.

End Report.

(** ** The layout algorithm as the specification words it

    Step 3c of the specification puts the page-break check before every
    output line.  [spec_draw_line] is that step, and [spec_build_pdf_report]
    the program with it in the place of the program's own loop over the
    wrapped lines; it is what [build_pdf_report] is compared with. *)

Section SpecReport.

Open Scope float_scope.

Variable clock : nat -> str.

Definition spec_draw_line (watermark_text : str) (y : float) (line : str) : Draw float :=
  y <- (if y <? 1.1 * inch then
          pdf_footer clock watermark_text page_w page_h ;;
          new_page ;;
          let y := page_h - 0.9 * inch in
          pdf_watermark watermark_text page_w page_h ;;
          setFont "Helvetica" 10 ;;
          ret y
        else ret y) ;;
  drawString margin_x y line ;;
  ret (y - 0.18 * inch).

Definition spec_draw_bullet (watermark_text : str) (y : float) (b : str) : Draw float :=
  for_each (wrap (bullet_text b)) y (spec_draw_line watermark_text).

Definition spec_draw_section (watermark_text : str) (y : float)
    (section : str * list str) : Draw float :=
  let (heading, bullets) := section in
  y <- (if y <? 1.3 * inch then
          pdf_footer clock watermark_text page_w page_h ;;
          new_page ;;
          let y := page_h - 0.9 * inch in
          pdf_watermark watermark_text page_w page_h ;;
          ret y
        else ret y) ;;
  setFont "Helvetica-Bold" 12 ;;
  drawString margin_x y heading ;;
  let y := y - 0.22 * inch in
  setFont "Helvetica" 10 ;;
  y <- for_each bullets y (spec_draw_bullet watermark_text) ;;
  ret (y - 0.12 * inch).

Definition spec_build_pdf_report (title : str) (sections : list (str * list str))
    (watermark_text : str) : document :=
  eval (
    let y := page_h - 0.9 * inch in
    pdf_watermark watermark_text page_w page_h ;;
    setFillColor (mkColor 0.9 0.95 1.0 1) ;;
    setFont "Helvetica-Bold" 18 ;;
    drawString margin_x y title ;;
    let y := y - 0.35 * inch in
    setFont "Helvetica" 10 ;;
    setFillColor (mkColor 0.8 0.85 0.95 1) ;;
    drawString margin_x y subtitle ;;
    let y := y - 0.30 * inch in
    setFillColor (mkColor 0.95 0.98 1.0 1) ;;
    _ <- for_each sections y (spec_draw_section watermark_text) ;;
    pdf_footer clock watermark_text page_w page_h ;;
    save) Canvas.

End SpecReport.

(** ** What a run records

    Every part of the program either appends calls to the current page
    ([add]) or turns the page ([page_break]: footer, [showPage], watermark).
    The cursor decides alone where the page turns: the clock and the canvas
    have no part in it.  So a run of the loops is the replay of a list of
    events computed from the cursor and the text. *)

Section Layout.

Open Scope float_scope.

Variable clock : nat -> str.

Definition add (os : list op) (w : world) : world :=
  mkWorld (pages w) (code w ++ os) (reads w).

Definition watermark_ops (text : str) (page_w page_h : float) : list op :=
  [ SaveState; SetFillColor (mkColor 0.65 0.75 0.95 0.12);
    SetFont "Helvetica-Bold" 36; Translate (page_w / 2) (page_h / 2);
    Rotate 30; DrawCentredString 0 0 text; RestoreState ].

Definition footer_ops (text : str) (page_w page_h : float) (stamp : str) : list op :=
  [ SaveState; SetFillColor (mkColor 0.7 0.75 0.9 0.55); SetFont "Helvetica" 9;
    DrawString (0.7 * inch) (0.45 * inch) text;
    DrawRightString (page_w - 0.7 * inch) (0.45 * inch) stamp; RestoreState ].

Definition page_break (watermark_text : str) (w : world) : world :=
  mkWorld
    (pages w ++ [code w ++ footer_ops watermark_text page_w page_h (clock (reads w))])
    (watermark_ops watermark_text page_w page_h)
    (S (reads w)).

(** The calls of a run of wrapped lines that starts at [y], and the cursor
    after [n] of them. *)
Fixpoint line_ops (y : float) (lines : list str) : list op :=
  match lines with
  | [] => []
  | line :: rest => DrawString margin_x y line :: line_ops (y - 0.18 * inch) rest
  end.

Fixpoint descend (y : float) (n : nat) : float :=
  match n with
  | 0 => y
  | S k => descend (y - 0.18 * inch) k
  end.

Inductive event :=
| Ops (os : list op)   (* calls appended to the current page *)
| Break.               (* footer, showPage, watermark *)

Definition play (watermark_text : str) (w : world) (e : event) : world :=
  match e with
  | Ops os => add os w
  | Break => page_break watermark_text w
  end.

Definition replay (watermark_text : str) (es : list event) (w : world) : world :=
  fold_left (play watermark_text) es w.

(** Where a bullet starts: at the top offset of a new page when the cursor
    is under 1.1 inch, where the cursor is otherwise. *)
Definition bullet_y0 (y : float) : float :=
  if y <? 1.1 * inch then page_h - 0.9 * inch else y.

Definition bullet_events (y : float) (b : str) : list event :=
  (if y <? 1.1 * inch then [Break; Ops [SetFont "Helvetica" 10]] else [])
    ++ [Ops (line_ops (bullet_y0 y) (wrap (bullet_text b)))].

Definition bullet_cursor (y : float) (b : str) : float :=
  descend (bullet_y0 y) (length (wrap (bullet_text b))).

Fixpoint bullets_events (y : float) (bs : list str) : list event :=
  match bs with
  | [] => []
  | b :: rest => bullet_events y b ++ bullets_events (bullet_cursor y b) rest
  end.

Fixpoint bullets_cursor (y : float) (bs : list str) : float :=
  match bs with
  | [] => y
  | b :: rest => bullets_cursor (bullet_cursor y b) rest
  end.

(** Where a heading is drawn: likewise, with 1.3 inch. *)
Definition section_y0 (y : float) : float :=
  if y <? 1.3 * inch then page_h - 0.9 * inch else y.

Definition heading_ops (y : float) (heading : str) : list op :=
  [ SetFont "Helvetica-Bold" 12; DrawString margin_x y heading; SetFont "Helvetica" 10 ].

Definition section_events (y : float) (section : str * list str) : list event :=
  (if y <? 1.3 * inch then [Break] else [])
    ++ [Ops (heading_ops (section_y0 y) (fst section))]
    ++ bullets_events (section_y0 y - 0.22 * inch) (snd section).

Definition section_cursor (y : float) (section : str * list str) : float :=
  bullets_cursor (section_y0 y - 0.22 * inch) (snd section) - 0.12 * inch.

Fixpoint sections_events (y : float) (sections : list (str * list str)) : list event :=
  match sections with
  | [] => []
  | s :: rest => section_events y s ++ sections_events (section_cursor y s) rest
  end.

(** What is drawn on page 1 before the first section, and where the cursor
    is then. *)
Definition title_ops (title : str) : list op :=
  [ SetFillColor (mkColor 0.9 0.95 1.0 1); SetFont "Helvetica-Bold" 18;
    DrawString margin_x (page_h - 0.9 * inch) title;
    SetFont "Helvetica" 10; SetFillColor (mkColor 0.8 0.85 0.95 1);
    DrawString margin_x (page_h - 0.9 * inch - 0.35 * inch) subtitle;
    SetFillColor (mkColor 0.95 0.98 1.0 1) ].

Definition front_ops (title watermark_text : str) : list op :=
  watermark_ops watermark_text page_w page_h ++ title_ops title.

Definition first_y : float := page_h - 0.9 * inch - 0.35 * inch - 0.30 * inch.

(** The canvas when the loop over the sections is done. *)
Definition laid_out (title : str) (sections : list (str * list str))
    (watermark_text : str) : world :=
  replay watermark_text (sections_events first_y sections)
    (add (front_ops title watermark_text) Canvas).

(** The document of a canvas whose last page only lacks its footer. *)
Definition finish (watermark_text : str) (w : world) : document :=
  pages w ++ [code w ++ footer_ops watermark_text page_w page_h (clock (reads w))].

End Layout.

(** ** Observations on pages and inputs *)

(** Only [pdf_watermark] draws a centred string, only [pdf_footer] a
    right-aligned one: they mark the watermark and the footer of a page. *)
Definition is_watermark (o : op) : bool :=
  match o with DrawCentredString _ _ _ => true | _ => false end.

Definition is_footer (o : op) : bool :=
  match o with DrawRightString _ _ _ => true | _ => false end.

Definition watermarks (p : page) : nat := length (filter is_watermark p).
Definition footers (p : page) : nat := length (filter is_footer p).

(** Calls that are neither mark. *)
Definition plain (os : list op) : Prop :=
  filter is_watermark os = [] /\ filter is_footer os = [].

Definition plain_event (e : event) : Prop :=
  match e with Ops os => plain os | Break => True end.

(** A closed page: the watermark, then plain calls, then the footer. *)
Definition stamped (wm : str) (p : page) : Prop :=
  exists body stamp,
    p = watermark_ops wm page_w page_h ++ body ++ footer_ops wm page_w page_h stamp
    /\ plain body.

(** The page being drawn: the watermark, then plain calls. *)
Definition begun (wm : str) (c : page) : Prop :=
  exists body, c = watermark_ops wm page_w page_h ++ body /\ plain body.

(** The invariant of the run: the closed pages are stamped, the current
    page has its watermark and no footer yet. *)
Definition in_shape (wm : str) (w : world) : Prop :=
  Forall (stamped wm) (pages w) /\ begun wm (code w).



(** The texts of the strings drawn at the left margin, in order. *)
Definition drawn_texts (os : list op) : list str :=
  flat_map (fun o => match o with DrawString _ _ text => [text] | _ => [] end) os.

(** The number of canvas calls of a document, and of a canvas. *)
Definition calls (d : document) : nat := length (concat d).





(** The first page of a canvas. *)
Definition first_page (w : world) : page :=
  match pages w with
  | [] => code w
  | p :: _ => p
  end.

(** The lengths the long-bullet scenario of the specification gives to the
    wrapped lines: ten lines, nine of 110 characters and one of 10. *)
Definition nine_full_one_of_10 (lines : list str) : Prop :=
  length lines = 10
  /\ count_occ Nat.eq_dec (map (@length char) lines) 110 = 9
  /\ count_occ Nat.eq_dec (map (@length char) lines) 10 = 1.

(** The page-break check is made before every wrapped line, on an input:
    the program draws what the layout algorithm of the specification
    draws. *)
Definition checked_before_every_line (clock : nat -> str) (title : str)
    (sections : list (str * list str)) (watermark_text : str) : Prop :=
  build_pdf_report clock title sections watermark_text =
  spec_build_pdf_report clock title sections watermark_text.

(** ** Inputs *)

(** A clock that stands still. *)
Definition noon : nat -> str := fun _ => lit "2026-01-01 12:00".


Definition x : char := 120%N.

(** One section of 46 bullets: 45 of ten characters, then one of 120. *)
Definition tail_wraps : list (str * list str) :=
  [ (lit "H", repeat (repeat x 10) 45 ++ [repeat x 120]) ].

(** One section of one bullet of 6,000 characters. *)
Definition long_bullet : list (str * list str) :=
  [ (lit "H", [repeat x (60 * 100)]) ].

(** ** More observations *)

(** The timestamps drawn by the footers among a list of calls, in order. *)
Definition stamp_texts (os : list op) : list str :=
  flat_map (fun o => match o with DrawRightString _ _ text => [text] | _ => [] end) os.

(** The clock was read once for every closed page, whose stamps are the
    readings in order; the current page has no stamp. *)
Definition stamped_in_order (clock : nat -> str) (w : world) : Prop :=
  reads w = length (pages w)
  /\ stamp_texts (concat (pages w)) = map clock (seq 0 (reads w))
  /\ stamp_texts (code w) = [].

(** A page without the 7 calls of its watermark and the 6 of its footer. *)
Definition body (p : page) : list op := firstn (length p - 13) (skipn 7 p).

(** What a canvas holds besides watermarks and footers. *)
Definition world_content (w : world) : list op :=
  concat (map body (pages w)) ++ skipn 7 (code w).

Definition event_ops (e : event) : list op :=
  match e with Ops os => os | Break => [] end.

(** The strings of the input in reading order: a heading, then the wrapped
    lines of its bullets. *)
Definition section_texts (s : str * list str) : list str :=
  fst s :: flat_map (fun b => wrap (bullet_text b)) (snd s).

Definition content_texts (sections : list (str * list str)) : list str :=
  flat_map section_texts sections.

(** The depth of saveState after a list of calls that starts at depth [d];
    [None] when a restoreState has no saveState to undo. *)
Fixpoint nesting (d : nat) (os : list op) : option nat :=
  match os with
  | [] => Some d
  | SaveState :: rest => nesting (S d) rest
  | RestoreState :: rest =>
      match d with
      | 0 => None
      | S d' => nesting d' rest
      end
  | _ :: rest => nesting d rest
  end.

Definition balanced (p : page) : Prop := nesting 0 p = Some 0.

(** The calls of the text flow: fonts, colours and strings at the margin. *)
Definition is_text_call (o : op) : bool :=
  match o with
  | SetFont _ _ | SetFillColor _ | DrawString _ _ _ => true
  | _ => false
  end.

Definition text_event (e : event) : Prop :=
  match e with Ops os => forallb is_text_call os = true | Break => True end.

(** A call with its string blanked out: what is left is where and how it
    draws. *)
Definition erase_text (o : op) : op :=
  match o with
  | DrawCentredString x y _ => DrawCentredString x y []
  | DrawString x y _ => DrawString x y []
  | DrawRightString x y _ => DrawRightString x y []
  | _ => o
  end.

Definition erase_event (e : event) : event :=
  match e with Ops os => Ops (map erase_text os) | Break => Break end.

Definition erase_texts (w : world) : list page * page :=
  (map (map erase_text) (pages w), map erase_text (code w)).

(** The shape of the input: how many lines each bullet of each section is
    wrapped into. *)
Definition shape (sections : list (str * list str)) : list (list nat) :=
  map (fun s => map (fun b => length (wrap (bullet_text b))) (snd s)) sections.

(** The heights of the strings drawn at the margin among a list of calls,
    and the first of them. *)
Definition drawn_ys (os : list op) : list float :=
  flat_map (fun o => match o with DrawString _ y _ => [y] | _ => [] end) os.

Definition first_draw (os : list op) : option float := hd_error (drawn_ys os).

(** The top offset, where the cursor starts on a page. *)
Definition top_y : float := (page_h - 0.9 * inch)%float.

(** Events that never turn a page on which nothing was drawn yet, and draw
    first at the top offset on a new page; [fresh] tells that the current
    page has no string yet. *)
Fixpoint paced (fresh : bool) (es : list event) : Prop :=
  match es with
  | [] => fresh = false
  | Break :: rest => fresh = false /\ paced true rest
  | Ops os :: rest =>
      if fresh then
        match first_draw os with
        | None => paced true rest
        | Some y => y = top_y /\ paced false rest
        end
      else paced false rest
  end.

(** The first string of every closed page is at the top offset, and so is
    the first one of the current page unless it is [fresh]. *)
Definition starts_at_top (fresh : bool) (w : world) : Prop :=
  Forall (fun p => first_draw (body p) = Some top_y) (pages w)
  /\ first_draw (skipn 7 (code w)) = if fresh then None else Some top_y.

(** ** The Gantt table

    [make_gantt] adds whole weeks to the start of the project.  A
    [datetime.date] is embedded as its proleptic Gregorian ordinal, day 1
    being [date.min] and day 3652059 [date.max] (9999-12-31); adding a
    [timedelta] that leaves this range raises [OverflowError].  The data
    frame of pandas is embedded as its columns and its rows. *)

Inductive exn := OverflowError.

Definition date := Z.

Definition MAXORDINAL : Z := 3652059.

(** [d + timedelta(days=days)] *)
Definition date_add (d : date) (days : Z) : exn + date :=
  let o := (d + days)%Z in
  if ((0 <? o)%Z && (o <=? MAXORDINAL)%Z)%bool then inr o else inl OverflowError.

(** The days of [timedelta(weeks=n)]. *)
Definition timedelta_weeks (n : Z) : Z := (7 * n)%Z.

Definition bind_exn {A B} (m : exn + A) (k : A -> exn + B) : exn + B :=
  match m with
  | inl e => inl e
  | inr a => k a
  end.

Record gantt_row := mkRow {
  Task : str; Start : date; Finish : date; Phase : str; Gate : str
}.

Record DataFrame := mkDataFrame {
  columns : list string;
  rows : list gantt_row
}.

Section MakeGantt.

Notation "x <- m ;; k" := (bind_exn m (fun x => k))
  (at level 61, m at next level, right associativity).

Definition make_gantt (project_start : date) : exn + DataFrame :=
  let w := fun weeks => date_add project_start (timedelta_weeks weeks) in
  s1 <- w 0%Z ;; f1 <- w 2%Z ;;
  s2 <- w 1%Z ;; f2 <- w 3%Z ;;
  s3 <- w 2%Z ;; f3 <- w 5%Z ;;
  s4 <- w 3%Z ;; f4 <- w 6%Z ;;
  s5 <- w 5%Z ;; f5 <- w 8%Z ;;
  s6 <- w 8%Z ;; f6 <- w 12%Z ;;
  s7 <- w 12%Z ;; f7 <- w 13%Z ;;
  inr (mkDataFrame
         ["Task"; "Start"; "Finish"; "Phase"; "Gate"]%string
         [ mkRow (lit "DEFINE " ++ [bullet_glyph] ++ lit " Charter + CTQs + SIPOC")
             s1 f1 (lit "DEFINE") (lit "Gate: Sponsor approval");
           mkRow (lit "DEFINE " ++ [bullet_glyph] ++ lit " Safety + Legal boundaries")
             s2 f2 (lit "DEFINE") (lit "Gate: Sign-offs");
           mkRow (lit "MEASURE " ++ [bullet_glyph] ++ lit " Baseline + Data Plan")
             s3 f3 (lit "MEASURE") (lit "Gate: Baseline report");
           mkRow (lit "MEASURE " ++ [bullet_glyph]
                    ++ lit " MSA (Measurement System Analysis)")
             s4 f4 (lit "MEASURE") (lit "Gate: Gage R&R acceptable");
           mkRow (lit "ANALYZE " ++ [bullet_glyph] ++ lit " Capability + Root Cause")
             s5 f5 (lit "ANALYZE") (lit "Gate: Verified drivers");
           mkRow (lit "IMPROVE " ++ [bullet_glyph] ++ lit " Pilot Solutions + DOE")
             s6 f6 (lit "IMPROVE") (lit "Gate: Verified improvement");
           mkRow (lit "CONTROL " ++ [bullet_glyph] ++ lit " Control Plan + SPC")
             s7 f7 (lit "CONTROL") (lit "Gate: Sustainment ready") ]).

End MakeGantt.

(** Tasks that follow one another: each starts after the one before has
    started and no later than it ends, and ends after it. *)
Fixpoint chained (rs : list gantt_row) : Prop :=
  match rs with
  | r1 :: ((r2 :: _) as rest) =>
      (Start r1 < Start r2 /\ Start r2 <= Finish r1 /\ Finish r1 < Finish r2)%Z
      /\ chained rest
  | _ => True
  end.

(** ** The payload utilisation

    [payload_util = min(100.0, (density * 3800) / max(trailer_payload, 1e-9) * 100.0)],
    on the floats the sidebar gives.  [min] and [max] of Python keep their
    first argument unless the second is strictly smaller (larger); a true
    division by zero raises ZeroDivisionError, here [None]. *)

Definition py_min (a b : float) : float := if (b <? a)%float then b else a.

Definition py_max (a b : float) : float := if (a <? b)%float then b else a.

Definition truediv (a b : float) : option float :=
  if (b =? 0)%float then None else Some (a / b)%float.

Definition payload_util (density trailer_payload : float) : option float :=
  match truediv (density * 3800)%float (py_max trailer_payload 1e-9%float) with
  | Some q => Some (py_min 100.0%float (q * 100.0)%float)
  | None => None
  end.

(** ** The export of the report

    The tab that exports the PDF builds the title and the six sections of
    the report and calls [build_pdf_report] with the watermark of the
    application.  The fields of its f-strings (the numbers of the sidebar
    and of the snapshot, formatted by Python) come here as the strings they
    are formatted to. *)

Definition WATERMARK_TEXT : str := lit "property of DSGE, Region V fouo".

Definition export_title (program_name site_name : str) : str :=
  program_name ++ lit " " ++ [bullet_glyph] ++ lit " Pilot Proposal ("
    ++ site_name ++ lit ")".

Definition export_sections (pilot_days contam_target payload_target
    weigh_time_target t_mo revenue_mo payload_util loads_mo : str)
    : list (str * list str) :=
  [
    (lit "Executive Summary",
     [
      lit "Request approval for a " ++ pilot_days
          ++ lit "-day controlled pilot under DMAIC (Define, Measure, Analyze, Improve, Control).";
      lit "No disruption to fulfillment operations; pilot boundaries are defined.";
      lit "Safety-positive controls: cutters-only, PPE (Personal Protective Equipment), housekeeping, and trailer securement (block & brace).";
      lit "Measurement credibility: MSA (Measurement System Analysis) before external claims.";
      lit "Clear exit criteria and end-of-pilot decision gate: expand / revise / stop." ]);
    (lit "Scope",
     [
      lit "In scope: straps only; single site pilot; collection " ++ [8594%N]
          ++ lit " consolidation " ++ [8594%N] ++ lit " compaction " ++ [8594%N]
          ++ lit " weighing " ++ [8594%N] ++ lit " staging " ++ [8594%N]
          ++ lit " shipping.";
      lit "Out of scope: other plastics, capital build-out, long-term contracts, full manufacturing expansion." ]);
    (lit "WBS Summary",
     [
      lit "Program Management, DEFINE, MEASURE, ANALYZE, IMPROVE, CONTROL work packages with owners and reaction plans." ]);
    (lit "CTQs (Critical to Quality)",
     [
      lit "Contamination " ++ [8804%N] ++ lit " " ++ contam_target ++ lit "%";
      lit "Payload utilization " ++ [8805%N] ++ lit " " ++ payload_target ++ lit "%";
      lit "Weigh time " ++ [8804%N] ++ lit " " ++ weigh_time_target ++ lit " sec";
      lit "Safety incidents = 0";
      lit "Net value trend " ++ [8805%N] ++ lit " break-even" ]);
    (lit "Pilot Snapshot (Assumption-Based)",
     [
      lit "Estimated tons/month: " ++ t_mo;
      lit "Estimated net value/month: " ++ revenue_mo;
      lit "Estimated payload utilization: " ++ payload_util ++ lit "%";
      lit "Estimated loads/month: " ++ loads_mo ]);
    (lit "Abbreviations",
     [
      lit "DMAIC " ++ [8211%N] ++ lit " Define, Measure, Analyze, Improve, Control";
      lit "CTQ " ++ [8211%N] ++ lit " Critical to Quality";
      lit "MSA " ++ [8211%N] ++ lit " Measurement System Analysis";
      lit "SPC " ++ [8211%N] ++ lit " Statistical Process Control";
      lit "DOE " ++ [8211%N] ++ lit " Design of Experiments";
      lit "FMEA " ++ [8211%N] ++ lit " Failure Modes and Effects Analysis";
      lit "ESG " ++ [8211%N] ++ lit " Environmental, Social, and Governance";
      lit "Cp/Cpk " ++ [8211%N] ++ lit " Process Capability (Potential/Actual)" ])
  ].

Definition pdf_bytes (clock : nat -> str) (program_name site_name : str)
    (pilot_days contam_target payload_target weigh_time_target
     t_mo revenue_mo payload_util loads_mo : str) : document :=
  build_pdf_report clock
    (export_title program_name site_name)
    (export_sections pilot_days contam_target payload_target weigh_time_target
       t_mo revenue_mo payload_util loads_mo)
    WATERMARK_TEXT.

(** The lines each bullet of the export is wrapped into when its fields
    are short. *)
Definition export_shape : list (list nat) :=
  [ [1; 1; 2; 1; 1]; [2; 1]; [1]; [1; 1; 1; 1; 1]; [1; 1; 1; 1];
    [1; 1; 1; 1; 1; 1; 1; 1] ].

(** ** The bytes of the document

    [buf.getvalue()] after [c.save()] is the PDF file that ReportLab writes.
    Besides the content streams of the pages, which hold the calls recorded
    on the canvas, the file carries the document information, which
    ReportLab stamps with the time at which the file is written, to the
    second (/CreationDate and /ModDate), and the /ID of the file, a digest
    of the whole.  The writer is the library's, not the program's: of its
    file the streams and the two dates are modelled, [info_time] being what
    ReportLab's own reading of the clock is formatted to. *)





(** ** Measures of the input and of the output *)


(** The characters of all the bullets. *)
Definition total_chars (sections : list (str * list str)) : nat :=
  list_sum (map (fun s => list_sum (map (@length char) (snd s))) sections).



(** * Lemmas *)

(** ** The program replays its layout *)

Lemma bind_run {A B} (m : Draw A) (k : A -> Draw B) w :
  bind m k w = k (fst (m w)) (snd (m w)).
Proof. unfold bind. now destruct (m w). Qed.

Lemma ret_run {A} (a : A) w : ret a w = (a, w).
Proof. reflexivity. Qed.

Lemma emit_run o w : emit o w = (tt, add [o] w).
Proof. reflexivity. Qed.

Lemma add_nil w : add [] w = w.
Proof. destruct w; unfold add; simpl; now rewrite app_nil_r. Qed.

Lemma add_add os1 os2 w : add os2 (add os1 w) = add (os1 ++ os2) w.
Proof. unfold add; simpl; now rewrite app_assoc. Qed.

(** Running a sequence of calls: push the world through the binds, then
    merge what was appended. *)
Ltac run :=
  cbv zeta;
  unfold saveState, restoreState, setFillColor, setFont, translate, rotate,
    drawCentredString, drawString, drawRightString;
  repeat first [ rewrite bind_run | rewrite ret_run | rewrite emit_run
               | rewrite add_add | progress cbn [fst snd app] ].

Section Effects.

Open Scope float_scope.

Variable clock : nat -> str.

Lemma pdf_watermark_run text pw ph w :
  pdf_watermark text pw ph w = (tt, add (watermark_ops text pw ph) w).
Proof. unfold pdf_watermark. run. reflexivity. Qed.

Lemma pdf_footer_run text pw ph w :
  pdf_footer clock text pw ph w =
  (tt, mkWorld (pages w) (code w ++ footer_ops text pw ph (clock (reads w)))
         (S (reads w))).
Proof.
  unfold pdf_footer. run. unfold now_strftime. run.
  unfold add, footer_ops. cbn [pages code reads]. now rewrite <- app_assoc.
Qed.

Lemma draw_lines_run lines : forall y w,
  for_each lines y draw_line w = (descend y (length lines), add (line_ops y lines) w).
Proof.
  induction lines as [|line rest IH]; intros y w; simpl.
  - now rewrite add_nil.
  - unfold draw_line at 1. run. rewrite IH. run. reflexivity.
Qed.

Lemma replay_app wm es1 es2 w :
  replay clock wm (es1 ++ es2) w = replay clock wm es2 (replay clock wm es1 w).
Proof. apply fold_left_app. Qed.

Lemma draw_bullet_replay wm y b w :
  draw_bullet clock wm y b w =
  (bullet_cursor y b, replay clock wm (bullet_events y b) w).
Proof.
  unfold draw_bullet, bullet_cursor, bullet_events, bullet_y0.
  destruct (y <? 1.1 * inch); run.
  - rewrite pdf_footer_run. run. unfold new_page, showPage. run.
    rewrite pdf_watermark_run. run. rewrite draw_lines_run. reflexivity.
  - rewrite draw_lines_run. reflexivity.
Qed.

Lemma draw_bullets_replay wm bs : forall y w,
  for_each bs y (draw_bullet clock wm) w =
  (bullets_cursor y bs, replay clock wm (bullets_events y bs) w).
Proof.
  induction bs as [|b rest IH]; intros y w; simpl.
  - reflexivity.
  - run. rewrite draw_bullet_replay. run. rewrite IH, replay_app. reflexivity.
Qed.

Lemma draw_section_replay wm y s w :
  draw_section clock wm y s w =
  (section_cursor y s, replay clock wm (section_events y s) w).
Proof.
  destruct s as [heading bullets].
  unfold draw_section, section_cursor, section_events, section_y0, heading_ops.
  destruct (y <? 1.3 * inch); run.
  - rewrite pdf_footer_run. run. unfold new_page, showPage. run.
    rewrite pdf_watermark_run. run. rewrite draw_bullets_replay. reflexivity.
  - rewrite draw_bullets_replay. reflexivity.
Qed.

Lemma draw_sections_replay wm sections : forall y w,
  exec (for_each sections y (draw_section clock wm)) w =
  replay clock wm (sections_events y sections) w.
Proof.
  induction sections as [|s rest IH]; intros y w; simpl.
  - reflexivity.
  - unfold exec in *. run. rewrite draw_section_replay. run.
    rewrite replay_app. apply IH.
Qed.

Lemma save_run ps c o os r :
  save (mkWorld ps (c ++ o :: os) r) =
  (ps ++ [c ++ o :: os], mkWorld (ps ++ [c ++ o :: os]) [] r).
Proof. unfold save. cbn [code]. destruct c; reflexivity. Qed.

Lemma build_pdf_report_replay title sections wm :
  build_pdf_report clock title sections wm =
  finish clock wm (laid_out clock title sections wm).
Proof.
  unfold build_pdf_report, eval, report, finish, laid_out, front_ops, title_ops.
  run. rewrite pdf_watermark_run. run.
  pose proof (draw_sections_replay wm sections) as H. unfold exec in H.
  rewrite H. rewrite pdf_footer_run. cbn [fst snd]. unfold footer_ops at 1.
  rewrite save_run. reflexivity.
Qed.

End Effects.

(** ** Every page is stamped *)

Section Shape.

Open Scope float_scope.

Variable clock : nat -> str.

Lemma plain_nil : plain [].
Proof. split; reflexivity. Qed.

Lemma plain_app os1 os2 : plain os1 -> plain os2 -> plain (os1 ++ os2).
Proof.
  intros [W1 F1] [W2 F2]. split; rewrite filter_app.
  - now rewrite W1, W2.
  - now rewrite F1, F2.
Qed.

Lemma plain_line_ops lines : forall y, plain (line_ops y lines).
Proof.
  induction lines as [|line rest IH]; intros y.
  - apply plain_nil.
  - destruct (IH (y - 0.18 * inch)) as [W F]. split; simpl; assumption.
Qed.

Ltac plain_events :=
  repeat first [ apply Forall_cons | apply Forall_nil | exact I
               | split; reflexivity ].

Lemma plain_bullet_events y b : Forall plain_event (bullet_events y b).
Proof.
  unfold bullet_events. apply Forall_app. split.
  - destruct (y <? 1.1 * inch); plain_events.
  - plain_events. apply plain_line_ops.
Qed.

Lemma plain_bullets_events bs : forall y, Forall plain_event (bullets_events y bs).
Proof.
  induction bs as [|b rest IH]; intros y; simpl.
  - constructor.
  - apply Forall_app. split; [apply plain_bullet_events | apply IH].
Qed.

Lemma plain_section_events y s : Forall plain_event (section_events y s).
Proof.
  unfold section_events. apply Forall_app. split.
  - destruct (y <? 1.3 * inch); plain_events.
  - apply Forall_app. split.
    + plain_events.
    + apply plain_bullets_events.
Qed.

Lemma plain_sections_events sections : forall y,
  Forall plain_event (sections_events y sections).
Proof.
  induction sections as [|s rest IH]; intros y; simpl.
  - constructor.
  - apply Forall_app. split; [apply plain_section_events | apply IH].
Qed.

Lemma play_shape wm e w :
  plain_event e -> in_shape wm w -> in_shape wm (play clock wm w e).
Proof.
  intros He [Hp [body [Hc Hb]]]. destruct e as [os|]; simpl.
  - split; [exact Hp|]. simpl. exists (body ++ os). split.
    + rewrite Hc. now rewrite app_assoc.
    + now apply plain_app.
  - split; simpl.
    + apply Forall_app. split; [exact Hp|]. constructor; [|constructor].
      exists body, (clock (reads w)). split; [|exact Hb].
      rewrite Hc. now rewrite app_assoc.
    + exists []. split; [now rewrite app_nil_r | apply plain_nil].
Qed.

Lemma replay_shape wm es : forall w,
  Forall plain_event es -> in_shape wm w -> in_shape wm (replay clock wm es w).
Proof.
  induction es as [|e rest IH]; intros w Hes Hw; simpl.
  - exact Hw.
  - inversion Hes; subst. apply IH; [assumption|]. now apply play_shape.
Qed.

Lemma laid_out_shape title sections wm :
  in_shape wm (laid_out clock title sections wm).
Proof.
  unfold laid_out. apply replay_shape.
  - apply plain_sections_events.
  - split; simpl.
    + constructor.
    + exists (title_ops title). split; [reflexivity|]. split; reflexivity.
Qed.

Lemma finish_shape wm w :
  in_shape wm w -> Forall (stamped wm) (finish clock wm w).
Proof.
  intros [Hp [body [Hc Hb]]]. unfold finish. apply Forall_app. split; [exact Hp|].
  constructor; [|constructor].
  exists body, (clock (reads w)). split; [|exact Hb].
  rewrite Hc. now rewrite app_assoc.
Qed.

Lemma build_pdf_report_stamped title sections wm :
  Forall (stamped wm) (build_pdf_report clock title sections wm).
Proof.
  rewrite build_pdf_report_replay. apply finish_shape, laid_out_shape.
Qed.

Lemma stamped_counts wm p :
  stamped wm p -> watermarks p = 1%nat /\ footers p = 1%nat.
Proof.
  intros [body [stamp [Hp [W F]]]]. subst p. unfold watermarks, footers.
  rewrite !filter_app, W, F. split; reflexivity.
Qed.

End Shape.

(** ** Wrapping *)

Lemma slice_chunk {A} (text : list A) i m :
  slice text i (i + m) = firstn m (skipn i text).
Proof. unfold slice. now replace (i + m - i) with m by lia. Qed.

Lemma range_from_0 stop step :
  step <> 0 ->
  range 0 stop step = map (fun k => k * step) (seq 0 ((stop + step - 1) / step)).
Proof.
  intros Hs. unfold range. destruct step as [|s]; [contradiction|].
  rewrite Nat.sub_0_r. reflexivity.
Qed.

Lemma wrap_chunks text :
  wrap text =
  map (fun k => firstn max_chars (skipn (k * max_chars) text))
      (seq 0 ((length text + max_chars - 1) / max_chars)).
Proof.
  unfold wrap. rewrite range_from_0 by discriminate. rewrite map_map.
  apply map_ext. intros k. apply slice_chunk.
Qed.

Lemma chunks_concat {A} m (text : list A) n :
  length text <= n * m ->
  concat (map (fun k => firstn m (skipn (k * m) text)) (seq 0 n)) = text.
Proof.
  revert text. induction n as [|n IH]; intros text Hlen.
  - simpl in *. destruct text; [reflexivity | simpl in Hlen; lia].
  - cbn [seq map concat]. rewrite <- seq_shift, map_map.
    rewrite (map_ext _ (fun k => firstn m (skipn (k * m) (skipn m text)))).
    + rewrite IH.
      * apply firstn_skipn.
      * rewrite length_skipn. simpl in Hlen. lia.
    + intros k. rewrite skipn_skipn. f_equal. f_equal. simpl. lia.
Qed.

Lemma chunks_cover n m : m <> 0 -> n <= (n + m - 1) / m * m.
Proof.
  intros Hm.
  pose proof (Nat.div_mod_eq (n + m - 1) m) as E.
  pose proof (Nat.mod_upper_bound (n + m - 1) m Hm) as U.
  nia.
Qed.

Lemma wrap_concat text : concat (wrap text) = text.
Proof.
  rewrite wrap_chunks. apply chunks_concat. apply chunks_cover. discriminate.
Qed.

Lemma wrap_length text : length (wrap text) = (length text + 109) / 110.
Proof.
  rewrite wrap_chunks, length_map, length_seq. unfold max_chars.
  f_equal. lia.
Qed.

Lemma wrap_lengths text :
  map (@length char) (wrap text) =
  map (fun k => Nat.min max_chars (length text - k * max_chars))
      (seq 0 ((length text + max_chars - 1) / max_chars)).
Proof.
  rewrite wrap_chunks, map_map. apply map_ext. intros k.
  now rewrite length_firstn, length_skipn.
Qed.

Lemma drawn_texts_line_ops lines : forall y, drawn_texts (line_ops y lines) = lines.
Proof.
  induction lines as [|line rest IH]; intros y; simpl.
  - reflexivity.
  - now rewrite IH.
Qed.

(** ** The clock only reaches the footer stamps *)




(** ** Counting calls and pages *)

Section Counting.

Variable clock : nat -> str.


Lemma replay_cons wm e es w :
  replay clock wm (e :: es) w = replay clock wm es (play clock wm w e).
Proof. reflexivity. Qed.















(** ** The first page *)

Lemma play_first_page wm e w :
  exists rest, first_page (play clock wm w e) = first_page w ++ rest.
Proof.
  unfold first_page. destruct e as [os|]; simpl; destruct (pages w) as [|p ps]; simpl.
  - now exists os.
  - exists []. now rewrite app_nil_r.
  - now eexists.
  - exists []. now rewrite app_nil_r.
Qed.

Lemma replay_first_page wm es : forall w,
  exists rest, first_page (replay clock wm es w) = first_page w ++ rest.
Proof.
  induction es as [|e more IH]; intros w.
  - exists []. simpl. now rewrite app_nil_r.
  - destruct (play_first_page wm e w) as [r1 H1].
    destruct (IH (play clock wm w e)) as [r2 H2].
    exists (r1 ++ r2). now rewrite replay_cons, H2, H1, app_assoc.
Qed.

Lemma finish_first_page wm w :
  exists rest more, finish clock wm w = (first_page w ++ rest) :: more.
Proof.
  unfold finish, first_page. destruct (pages w) as [|p ps]; simpl.
  - now eexists _, _.
  - exists [], (ps ++ [code w ++ footer_ops wm page_w page_h (clock (reads w))]).
    now rewrite app_nil_r.
Qed.

End Counting.

(** * The properties of the report *)

#[local] Open Scope float_scope.

(** ** Page breaks *)

(** A heading is never drawn under the 1.3 inch threshold, and the first
    wrapped line of a bullet never under the 1.1 inch one. *)
Lemma section_y0_clear y : (section_y0 y <? 1.3 * inch) = false.
Proof.
  unfold section_y0. destruct (y <? 1.3 * inch) eqn:E; [reflexivity | exact E].
Qed.

Lemma bullet_y0_clear y : (bullet_y0 y <? 1.1 * inch) = false.
Proof.
  unfold bullet_y0. destruct (y <? 1.1 * inch) eqn:E; [reflexivity | exact E].
Qed.

Ltac find_call := repeat first [ left; reflexivity | right ].

(** C1, as the code has it. The page-break check is made before every
    heading and before the first wrapped line of every bullet.  A section
    starts by the check against 1.3 inch, turns the page when it must, and
    draws its heading; whatever follows is laid out after that.  A bullet
    starts as the checked line of the specification does on its first
    wrapped line: the check against 1.1 inch, the page turned when it must,
    then the line; whatever follows is added to the page that line is on. *)
Theorem check_before_heading_and_first_line clock wm y w :
  (forall heading bullets, exists es,
     exec (draw_section clock wm y (heading, bullets)) w =
     replay clock wm es
       (add (heading_ops (if y <? 1.3 * inch then page_h - 0.9 * inch else y) heading)
            (if y <? 1.3 * inch then page_break clock wm w else w)))
  /\ (forall b, exists first rest os,
        wrap (bullet_text b) = first :: rest
        /\ exec (draw_bullet clock wm y b) w =
           add os (exec (spec_draw_line clock wm y first) w)).
Proof.
  split.
  - intros heading bullets. unfold exec. rewrite draw_section_replay.
    cbn [snd]. unfold section_events, section_y0. cbn [fst snd].
    exists (bullets_events
              ((if y <? 1.3 * inch then page_h - 0.9 * inch else y) - 0.22 * inch)
              bullets).
    destruct (y <? 1.3 * inch); reflexivity.
  - intros b. destruct (wrap (bullet_text b)) as [|first rest] eqn:E.
    + apply (f_equal (@length _)) in E. rewrite wrap_length in E.
      cbn [bullet_text length] in E.
      assert (1 <= (S (S (length b)) + 109) / 110)%nat
        by (apply Nat.div_le_lower_bound; lia).
      lia.
    + exists first, rest.
      exists (line_ops ((if y <? 1.1 * inch then page_h - 0.9 * inch else y)
                        - 0.18 * inch) rest).
      split; [reflexivity|].
      unfold exec. rewrite draw_bullet_replay. cbn [snd].
      unfold bullet_events, bullet_y0, spec_draw_line. rewrite E.
      destruct (y <? 1.1 * inch); run.
      * rewrite pdf_footer_run. run. unfold new_page, showPage. run.
        rewrite pdf_watermark_run. run. reflexivity.
      * reflexivity.
Qed.

(** C1, as stated, fails on a section of 46 bullets whose last one wraps
    onto two lines: the program makes one page of it, the layout with the
    check before every line makes two. *)
Lemma tail_line_not_checked :
  ~ checked_before_every_line noon (lit "T") tail_wraps (lit "W").
Proof.
  unfold checked_before_every_line. intros H.
  apply (f_equal (@length _)) in H. vm_compute in H. discriminate H.
Qed.

(** On that input the second line of the last bullet is drawn 46 lines
    under the first bullet, below the 1.1 inch threshold, where the
    layout with the check before every line has it at the top of a second
    page. *)
Lemma continuation_line_drawn_without_check clock :
  let doc := build_pdf_report clock (lit "T") tail_wraps (lit "W") in
  let y := descend (first_y - 0.22 * inch) 46 in
  length doc = 1%nat
  /\ In (DrawString margin_x y (repeat x 12)) (concat doc)
  /\ (y <? 1.1 * inch) = true
  /\ In (DrawString margin_x (page_h - 0.9 * inch) (repeat x 12))
        (nth 1 (spec_build_pdf_report clock (lit "T") tail_wraps (lit "W")) []).
Proof.
  cbv zeta. split; [reflexivity|]. split; [|split; [reflexivity|]].
  - vm_compute. find_call.
  - vm_compute. find_call.
Qed.

(** C2. A drawn line can be under the bottom threshold of its kind: the
    wrapped lines of a bullet of 6,000 characters run down a single page,
    the last of them (62 characters) 54 lines under the first, below the
    bottom edge of the page. *)
Theorem long_bullet_runs_off_the_page clock :
  let doc := build_pdf_report clock (lit "T") long_bullet (lit "W") in
  let y := descend (first_y - 0.22 * inch) 54 in
  length doc = 1%nat
  /\ In (DrawString margin_x y (repeat x 62)) (concat doc)
  /\ (y <? 1.1 * inch) = true
  /\ (y <? 0) = true.
Proof.
  cbv zeta. split; [vm_compute; reflexivity|].
  split; [|split; reflexivity].
  vm_compute. find_call.
Qed.

(** ** Wrapping *)

(** C3, as the code has it. A bullet of 1,000 characters is wrapped into ten
    lines: nine of 110 characters and a last one of 12, the 1,000 characters
    and the two of the prefix making 1,002. *)
Theorem thousand_chars_wrap (b : str) :
  length b = 1000%nat ->
  map (@length char) (wrap (bullet_text b)) = repeat 110%nat 9 ++ [12%nat].
Proof.
  intros H. rewrite wrap_lengths. cbn [bullet_text length]. rewrite H.
  vm_compute. reflexivity.
Qed.

(** The bullet made of 1,000 copies of one character is such a bullet. *)
Lemma thousand_chars_wrap_witness :
  length (repeat x 1000) = 1000%nat
  /\ map (@length char) (wrap (bullet_text (repeat x 1000))) = repeat 110%nat 9 ++ [12%nat].
Proof.
  split; [reflexivity|]. apply (thousand_chars_wrap (repeat x 1000)). reflexivity.
Defined.

(** C3, as stated, fails on the bullet made of 1,000 copies of one
    character: no wrapped line has length 10. *)
Lemma thousand_chars_no_line_of_10 :
  ~ nine_full_one_of_10 (wrap (bullet_text (repeat x 1000))).
Proof.
  intros [_ [_ H]]. vm_compute in H. discriminate H.
Qed.

(** C4. The wrapped lines of a bullet are drawn one after the other, and
    joined again they are the prefixed text: dropping the two characters of
    the prefix gives the bullet back. *)
Theorem wrapped_lines_rejoin clock wm y (b : str) w :
  let lines := wrap (bullet_text b) in
  skipn 2 (concat lines) = b
  /\ exists w0 y0,
       exec (draw_bullet clock wm y b) w = add (line_ops y0 lines) w0
       /\ drawn_texts (line_ops y0 lines) = lines.
Proof.
  cbv zeta. split.
  - now rewrite wrap_concat.
  - unfold exec. rewrite draw_bullet_replay. unfold bullet_events.
    rewrite replay_app. cbn [snd].
    eexists _, _. split; [reflexivity|]. apply drawn_texts_line_ops.
Qed.

(** ** Pages *)

(** C5. Every page of the document has one watermark and one footer. *)
Theorem every_page_one_watermark_one_footer clock title sections wm :
  Forall (fun p => watermarks p = 1%nat /\ footers p = 1%nat)
         (build_pdf_report clock title sections wm).
Proof.
  eapply Forall_impl; [|apply build_pdf_report_stamped].
  intros p. apply stamped_counts.
Qed.

(** A section of a hundred bullets runs over three pages. *)
Example hundred_bullets_three_pages clock :
  length (build_pdf_report clock (lit "T") [(lit "H", repeat [x] 100)] (lit "W")) = 3%nat.
Proof. vm_compute. reflexivity. Qed.




(** C7. Without sections the document is one page: the watermark, the
    title, the subtitle and the footer, and nothing else. *)
Theorem empty_sections_one_page clock title wm :
  build_pdf_report clock title [] wm =
  [ watermark_ops wm page_w page_h
    ++ [ SetFillColor (mkColor 0.9 0.95 1.0 1); SetFont "Helvetica-Bold" 18;
         DrawString margin_x (page_h - 0.9 * inch) title;
         SetFont "Helvetica" 10; SetFillColor (mkColor 0.8 0.85 0.95 1);
         DrawString margin_x (page_h - 0.9 * inch - 0.35 * inch) subtitle;
         SetFillColor (mkColor 0.95 0.98 1.0 1) ]
    ++ footer_ops wm page_w page_h (clock 0%nat) ].
Proof. reflexivity. Qed.

(** ** Offsets and thresholds *)

Lemma draw_section_run clock wm y heading bullets w :
  draw_section clock wm y (heading, bullets) w =
  let y0 := if y <? 1.3 * inch then page_h - 0.9 * inch else y in
  let r := for_each bullets (y0 - 0.22 * inch) (draw_bullet clock wm)
             (add (heading_ops y0 heading)
                  (if y <? 1.3 * inch then page_break clock wm w else w)) in
  (fst r - 0.12 * inch, snd r).
Proof.
  unfold draw_section, heading_ops. cbv zeta.
  destruct (y <? 1.3 * inch); run.
  - rewrite pdf_footer_run. run. unfold new_page, showPage. run.
    rewrite pdf_watermark_run. run. reflexivity.
  - reflexivity.
Qed.



(** ** Totality and the work done *)

(** A bullet of 5,000 characters is drawn as 46 lines. *)
Example five_thousand_chars_46_lines :
  length (wrap (bullet_text (repeat x (50 * 100)))) = 46%nat.
Proof. vm_compute. reflexivity. Qed.

(** ** No validation *)

(** C10. For every input, an empty title and an empty watermark text
    included, a document comes out: it has a first page, which starts with
    the watermark and the title, drawn as they are given. *)
Theorem no_input_is_rejected clock title sections wm :
  (exists rest more,
     build_pdf_report clock title sections wm
     = (watermark_ops wm page_w page_h ++ title_ops title ++ rest) :: more)
  /\ In (DrawCentredString 0 0 wm) (watermark_ops wm page_w page_h)
  /\ In (DrawString margin_x (page_h - 0.9 * inch) title) (title_ops title).
Proof.
  split; [|split; simpl; find_call].
  rewrite build_pdf_report_replay.
  destruct (finish_first_page clock wm (laid_out clock title sections wm))
    as [rest [more H]].
  unfold laid_out in H.
  destruct (replay_first_page clock wm (sections_events first_y sections)
              (add (front_ops title wm) Canvas)) as [r H'].
  rewrite H' in H. unfold laid_out. rewrite H.
  exists (r ++ rest), more. reflexivity.
Qed.

(** With an empty title and an empty watermark text the page is drawn all
    the same, around two empty strings. *)
Example empty_title_and_watermark clock :
  build_pdf_report clock [] [] [] =
  [ watermark_ops [] page_w page_h ++ title_ops []
    ++ footer_ops [] page_w page_h (clock 0%nat) ].
Proof. reflexivity. Qed.

(** * Further properties of the report *)

#[local] Close Scope float_scope.

Lemma report_run clock title sections wm :
  report clock title sections wm Canvas =
  let w := laid_out clock title sections wm in
  (finish clock wm w, mkWorld (finish clock wm w) [] (S (reads w))).
Proof.
  unfold report, finish, laid_out, front_ops, title_ops.
  run. rewrite pdf_watermark_run. run.
  pose proof (draw_sections_replay clock wm sections) as H. unfold exec in H.
  rewrite H. rewrite pdf_footer_run. cbn [fst snd]. unfold footer_ops at 1.
  rewrite save_run. reflexivity.
Qed.

(** ** The shape of the pages *)

(** X1. Every page of the document is the watermark block, then calls that
    draw neither a watermark nor a footer stamp, then the footer block; both
    blocks carry the watermark text that was given. *)
Theorem pages_are_watermark_body_footer clock title sections wm :
  Forall
    (fun p => exists body stamp,
       p = watermark_ops wm page_w page_h ++ body
             ++ footer_ops wm page_w page_h stamp
       /\ watermarks body = 0 /\ footers body = 0)
    (build_pdf_report clock title sections wm).
Proof.
  eapply Forall_impl; [|apply build_pdf_report_stamped].
  intros p [b [stamp [Hp [W F]]]]. exists b, stamp.
  unfold watermarks, footers. rewrite W, F. repeat split. exact Hp.
Qed.

(** ** The clock *)

Section Stamps.

Variable clock : nat -> str.

Lemma stamp_texts_app os1 os2 :
  stamp_texts (os1 ++ os2) = stamp_texts os1 ++ stamp_texts os2.
Proof. apply flat_map_app. Qed.

Lemma plain_no_stamp os : plain os -> stamp_texts os = [].
Proof.
  intros [_ F]. induction os as [|o rest IH]; [reflexivity|].
  destruct o; simpl in *; try (apply IH; assumption); discriminate F.
Qed.

Lemma play_stamps wm e w :
  plain_event e -> stamped_in_order clock w ->
  stamped_in_order clock (play clock wm w e).
Proof.
  intros He [Hr [Hs Hc]].
  destruct e as [os|]; unfold stamped_in_order, play, add, page_break;
    cbn [pages code reads].
  - repeat split; try assumption.
    rewrite stamp_texts_app, Hc. now apply plain_no_stamp.
  - rewrite length_app, concat_app, !stamp_texts_app, Hs. cbn [concat].
    rewrite app_nil_r, stamp_texts_app, Hc.
    rewrite seq_S, map_app. cbn [length]. repeat split. lia.
Qed.

Lemma replay_stamps wm es : forall w,
  Forall plain_event es -> stamped_in_order clock w ->
  stamped_in_order clock (replay clock wm es w).
Proof.
  induction es as [|e rest IH]; intros w Hes Hw.
  - exact Hw.
  - inversion Hes; subst. rewrite replay_cons. apply IH; [assumption|].
    now apply play_stamps.
Qed.

End Stamps.

(** X2. The clock is read exactly once for each page, when its footer is
    drawn: the stamp of the k-th page is the k-th reading, and the number of
    readings is the number of pages. *)
Theorem clock_read_once_per_page clock title sections wm :
  let doc := build_pdf_report clock title sections wm in
  stamp_texts (concat doc) = map clock (seq 0 (length doc))
  /\ reads (exec (report clock title sections wm) Canvas) = length doc.
Proof.
  cbv zeta. unfold build_pdf_report, exec, eval. rewrite report_run. cbv zeta.
  cbn [fst snd reads].
  assert (H : stamped_in_order clock (laid_out clock title sections wm)).
  { unfold laid_out. apply replay_stamps.
    - apply plain_sections_events.
    - repeat split. }
  destruct H as [Hr [Hs Hc]]. unfold finish.
  rewrite concat_app, length_app, !stamp_texts_app, Hs. simpl.
  rewrite app_nil_r, stamp_texts_app, Hc. simpl.
  rewrite <- Hr, Nat.add_1_r, seq_S, map_app. simpl. split; reflexivity.
Qed.

(** ** The text, in order *)

Section Content.

Variable clock : nat -> str.

Lemma body_stamped wm b stamp :
  body (watermark_ops wm page_w page_h ++ b ++ footer_ops wm page_w page_h stamp) = b.
Proof.
  unfold body. rewrite !length_app. cbn [watermark_ops footer_ops length].
  replace (7 + (length b + 6) - 13) with (length b) by lia.
  unfold watermark_ops. cbn [app skipn].
  rewrite firstn_app, Nat.sub_diag, firstn_all. cbn [firstn].
  apply app_nil_r.
Qed.

Lemma play_content wm e w :
  in_shape wm w ->
  world_content (play clock wm w e) = world_content w ++ event_ops e.
Proof.
  intros [_ [b [Hc _]]].
  destruct e as [os|]; unfold world_content, play, add, page_break;
    cbn [pages code event_ops].
  - rewrite Hc. unfold watermark_ops. cbn [app skipn]. now rewrite app_assoc.
  - rewrite map_app, concat_app. cbn [map concat]. rewrite Hc.
    rewrite <- (app_assoc (watermark_ops wm page_w page_h) b).
    rewrite body_stamped. unfold watermark_ops. cbn [app skipn].
    now rewrite !app_nil_r.
Qed.

Lemma replay_content wm es : forall w,
  Forall plain_event es -> in_shape wm w ->
  world_content (replay clock wm es w) = world_content w ++ flat_map event_ops es.
Proof.
  induction es as [|e rest IH]; intros w Hes Hw.
  - simpl. now rewrite app_nil_r.
  - inversion Hes; subst. rewrite replay_cons, IH.
    + rewrite play_content by assumption. cbn [flat_map]. now rewrite app_assoc.
    + assumption.
    + now apply play_shape.
Qed.

Lemma finish_content wm w :
  in_shape wm w -> concat (map body (finish clock wm w)) = world_content w.
Proof.
  intros [_ [b [Hc _]]]. unfold finish, world_content.
  rewrite map_app, concat_app. cbn [map concat]. rewrite Hc.
  rewrite <- (app_assoc (watermark_ops wm page_w page_h) b).
  rewrite body_stamped. unfold watermark_ops. cbn [app skipn].
  now rewrite app_nil_r.
Qed.

Lemma drawn_texts_app os1 os2 :
  drawn_texts (os1 ++ os2) = drawn_texts os1 ++ drawn_texts os2.
Proof. apply flat_map_app. Qed.

Lemma bullets_events_texts bs : forall y,
  drawn_texts (flat_map event_ops (bullets_events y bs)) =
  flat_map (fun b => wrap (bullet_text b)) bs.
Proof.
  induction bs as [|b rest IH]; intros y; [reflexivity|].
  cbn [bullets_events flat_map]. rewrite flat_map_app, drawn_texts_app, IH.
  f_equal. unfold bullet_events.
  destruct (PrimFloat.ltb y _); cbn [app flat_map event_ops];
    rewrite ?app_nil_r; cbn [app drawn_texts flat_map];
    apply drawn_texts_line_ops.
Qed.

Lemma sections_events_texts sections : forall y,
  drawn_texts (flat_map event_ops (sections_events y sections)) =
  content_texts sections.
Proof.
  induction sections as [|s rest IH]; intros y; [reflexivity|].
  cbn [sections_events]. unfold content_texts. cbn [flat_map].
  rewrite flat_map_app, drawn_texts_app, IH. f_equal.
  unfold section_events, section_texts.
  rewrite !flat_map_app, !drawn_texts_app, bullets_events_texts.
  destruct (PrimFloat.ltb y _); reflexivity.
Qed.

End Content.

(** X3. Nothing of the text is lost, repeated or moved by the page breaks:
    the bodies of the pages, read one after the other, draw the title, the
    subtitle, then for every section in order its heading and the wrapped
    lines of its bullets in order. *)
Theorem text_drawn_in_order clock title sections wm :
  drawn_texts (concat (map body (build_pdf_report clock title sections wm))) =
  title :: subtitle :: content_texts sections.
Proof.
  rewrite build_pdf_report_replay.
  rewrite finish_content by apply laid_out_shape.
  unfold laid_out. rewrite replay_content.
  - rewrite drawn_texts_app, sections_events_texts. reflexivity.
  - apply plain_sections_events.
  - split; [constructor|]. exists (title_ops title).
    split; [reflexivity|]. split; reflexivity.
Qed.

(** ** Above the thresholds *)

(** X4. Whatever the cursor and whatever the bullets of the section, a
    heading is never drawn under the 1.3 inch threshold: the section draws
    its heading at a position [y0] that passes the check, after the page
    break if there is one, and goes on with its bullets from there.  The
    first wrapped line of a bullet is never drawn under the 1.1 inch
    threshold: the current page ends with the lines of the bullet, the
    first of them at a position that passes the check. *)
Theorem heading_and_first_line_above_threshold clock wm y w :
  (forall heading bullets,
     let y0 := (if y <? 1.3 * inch then page_h - 0.9 * inch else y)%float in
     exec (draw_section clock wm y (heading, bullets)) w
       = exec (for_each bullets (y0 - 0.22 * inch)%float (draw_bullet clock wm))
              (add (heading_ops y0 heading)
                   (if (y <? 1.3 * inch)%float then page_break clock wm w else w))
     /\ (y0 <? 1.3 * inch)%float = false)
  /\ (forall b, exists pre y0 first rest,
        wrap (bullet_text b) = first :: rest
        /\ code (exec (draw_bullet clock wm y b) w)
           = pre ++ DrawString margin_x y0 first
                 :: line_ops (y0 - 0.18 * inch)%float rest
        /\ (y0 <? 1.1 * inch)%float = false).
Proof.
  split.
  - intros heading bullets. cbv zeta. unfold exec.
    rewrite draw_section_run. cbv zeta. cbn [snd].
    split; [reflexivity | apply section_y0_clear].
  - intros b. unfold exec. rewrite draw_bullet_replay. cbn [snd].
    unfold bullet_events. rewrite replay_app.
    destruct (wrap (bullet_text b)) as [|first rest] eqn:E.
    + apply (f_equal (@length _)) in E. rewrite wrap_length in E.
      cbn [bullet_text length] in E.
      assert (1 <= (S (S (length b)) + 109) / 110)
        by (apply Nat.div_le_lower_bound; lia).
      lia.
    + eexists _, (bullet_y0 y), first, rest.
      split; [reflexivity|]. split; [|apply bullet_y0_clear].
      cbn [replay fold_left play add code line_ops]. reflexivity.
Qed.

(** ** saveState and restoreState *)

Section Balance.

Variable clock : nat -> str.

Lemma nesting_app os1 : forall d os2,
  nesting d (os1 ++ os2) =
  match nesting d os1 with
  | Some d' => nesting d' os2
  | None => None
  end.
Proof.
  induction os1 as [|o rest IH]; intros d os2; [reflexivity|].
  destruct o; cbn [app nesting]; try apply IH.
  destruct d; [reflexivity | apply IH].
Qed.

Lemma nesting_text os : forall d,
  forallb is_text_call os = true -> nesting d os = Some d.
Proof.
  induction os as [|o rest IH]; intros d H; [reflexivity|].
  cbn [forallb] in H. apply andb_prop in H. destruct H as [Ho Hr].
  destruct o; try discriminate Ho; cbn [nesting]; now apply IH.
Qed.

Lemma text_line_ops lines : forall y,
  forallb is_text_call (line_ops y lines) = true.
Proof.
  induction lines as [|line rest IH]; intros y; [reflexivity|].
  cbn [line_ops forallb is_text_call]. apply IH.
Qed.

Ltac text_events :=
  repeat first [ apply Forall_cons | apply Forall_nil | exact I | reflexivity ].

Lemma text_bullets_events bs : forall y, Forall text_event (bullets_events y bs).
Proof.
  induction bs as [|b rest IH]; intros y; [constructor|].
  cbn [bullets_events]. apply Forall_app. split; [|apply IH].
  unfold bullet_events. apply Forall_app. split.
  - destruct (PrimFloat.ltb y _); text_events.
  - text_events. apply text_line_ops.
Qed.

Lemma text_sections_events sections : forall y,
  Forall text_event (sections_events y sections).
Proof.
  induction sections as [|s rest IH]; intros y; [constructor|].
  cbn [sections_events]. apply Forall_app. split; [|apply IH].
  unfold section_events. apply Forall_app. split.
  - destruct (PrimFloat.ltb y _); text_events.
  - apply Forall_app. split; [text_events | apply text_bullets_events].
Qed.

Lemma play_balanced wm e w :
  text_event e ->
  Forall balanced (pages w) /\ nesting 0 (code w) = Some 0 ->
  Forall balanced (pages (play clock wm w e))
  /\ nesting 0 (code (play clock wm w e)) = Some 0.
Proof.
  intros He [Hp Hc].
  destruct e as [os|]; unfold play, add, page_break; cbn [pages code].
  - split; [exact Hp|]. rewrite nesting_app, Hc. now apply nesting_text.
  - split; [|reflexivity]. apply Forall_app. split; [exact Hp|].
    constructor; [|constructor]. unfold balanced. now rewrite nesting_app, Hc.
Qed.

Lemma replay_balanced wm es : forall w,
  Forall text_event es ->
  Forall balanced (pages w) /\ nesting 0 (code w) = Some 0 ->
  Forall balanced (pages (replay clock wm es w))
  /\ nesting 0 (code (replay clock wm es w)) = Some 0.
Proof.
  induction es as [|e rest IH]; intros w Hes Hw.
  - exact Hw.
  - inversion Hes; subst. rewrite replay_cons. apply IH; [assumption|].
    now apply play_balanced.
Qed.

End Balance.

(** X5. On every page the calls of saveState and restoreState are balanced:
    no restoreState comes without a saveState before it, and the page ends
    with every saveState undone, so that what the watermark and the footer
    set (colour, font, rotation) stays inside their blocks. *)
Theorem save_restore_balanced clock title sections wm :
  Forall balanced (build_pdf_report clock title sections wm).
Proof.
  rewrite build_pdf_report_replay. unfold finish, laid_out.
  destruct (replay_balanced clock wm (sections_events first_y sections)
              (add (front_ops title wm) Canvas)) as [Hp Hc].
  - apply text_sections_events.
  - split; [constructor | reflexivity].
  - apply Forall_app. split; [exact Hp|]. constructor; [|constructor].
    unfold balanced. now rewrite nesting_app, Hc.
Qed.

(** ** The wrapped lines *)

(** X6. No wrapped line is empty or longer than 110 characters, and every
    line but the last has exactly 110. *)
Theorem wrapped_line_lengths (text : str) :
  Forall (fun line => 1 <= length line <= max_chars) (wrap text)
  /\ forall k, S k < length (wrap text) ->
       length (nth k (wrap text) []) = max_chars.
Proof.
  pose proof (wrap_lengths text) as L.
  pose proof (Nat.div_mod_eq (length text + max_chars - 1) max_chars) as E.
  pose proof (Nat.mod_upper_bound (length text + max_chars - 1) max_chars) as U.
  unfold max_chars in *. specialize (U ltac:(discriminate)).
  split.
  - apply (Forall_map (@length char)
             (fun n => 1 <= n <= 110) (wrap text)).
    rewrite L. apply Forall_map, Forall_forall. intros k Hk.
    apply in_seq in Hk. lia.
  - intros k Hk.
    etransitivity;
      [symmetry; exact (map_nth (@length char) (wrap text) [] k)|].
    rewrite L.
    rewrite wrap_length in Hk.
    replace (length text + 110 - 1) with (length text + 109) in * by lia.
    rewrite (nth_indep _ _ (Nat.min 110 (length text - 0 * 110)))
      by (rewrite length_map, length_seq; lia).
    rewrite (map_nth (fun k => Nat.min 110 (length text - k * 110))).
    rewrite seq_nth by lia. lia.
Qed.

(** ** The layout and the text *)

Lemma erase_line_ops lines1 : forall lines2 y,
  length lines1 = length lines2 ->
  map erase_text (line_ops y lines1) = map erase_text (line_ops y lines2).
Proof.
  induction lines1 as [|l1 rest1 IH]; intros [|l2 rest2] y H;
    try discriminate H; [reflexivity|].
  cbn [line_ops map erase_text]. f_equal. apply IH. now injection H.
Qed.

Lemma erase_bullet_events y b1 b2 :
  length (wrap (bullet_text b1)) = length (wrap (bullet_text b2)) ->
  map erase_event (bullet_events y b1) = map erase_event (bullet_events y b2)
  /\ bullet_cursor y b1 = bullet_cursor y b2.
Proof.
  intros H. unfold bullet_events, bullet_cursor. rewrite H. split; [|reflexivity].
  rewrite !map_app. f_equal. cbn [map erase_event]. f_equal. f_equal.
  now apply erase_line_ops.
Qed.

Lemma erase_bullets_events bs1 : forall bs2 y,
  map (fun b => length (wrap (bullet_text b))) bs1
    = map (fun b => length (wrap (bullet_text b))) bs2 ->
  map erase_event (bullets_events y bs1) = map erase_event (bullets_events y bs2)
  /\ bullets_cursor y bs1 = bullets_cursor y bs2.
Proof.
  induction bs1 as [|b1 rest1 IH]; intros [|b2 rest2] y H;
    try discriminate H; [split; reflexivity|].
  cbn [map] in H. injection H as Hb Hr.
  destruct (erase_bullet_events y b1 b2 Hb) as [He Hc].
  cbn [bullets_events bullets_cursor]. rewrite !map_app, He, Hc.
  destruct (IH rest2 (bullet_cursor y b2) Hr) as [He' Hc'].
  now rewrite He', Hc'.
Qed.

Lemma erase_sections_events s1 : forall s2 y,
  shape s1 = shape s2 ->
  map erase_event (sections_events y s1) = map erase_event (sections_events y s2).
Proof.
  induction s1 as [|[h1 bs1] rest1 IH]; intros [|[h2 bs2] rest2] y H;
    try discriminate H; [reflexivity|].
  unfold shape in H. cbn [map snd] in H. injection H as Hb Hr.
  cbn [sections_events]. unfold section_events, section_cursor. cbn [fst snd].
  destruct (erase_bullets_events bs1 bs2
              (PrimFloat.sub (section_y0 y) (PrimFloat.mul 0.22%float inch)) Hb)
    as [He Hc].
  rewrite !map_app, He, Hc.
  rewrite (IH rest2 (PrimFloat.sub
                       (bullets_cursor
                          (PrimFloat.sub (section_y0 y)
                             (PrimFloat.mul 0.22%float inch)) bs2)
                       (PrimFloat.mul 0.12%float inch)) Hr).
  reflexivity.
Qed.

Lemma replay_erase_texts clock1 clock2 wm1 wm2 es1 : forall es2 w1 w2,
  map erase_event es1 = map erase_event es2 ->
  erase_texts w1 = erase_texts w2 ->
  erase_texts (replay clock1 wm1 es1 w1) = erase_texts (replay clock2 wm2 es2 w2).
Proof.
  induction es1 as [|e1 rest1 IH]; intros [|e2 rest2] w1 w2 He Hw;
    try discriminate He; [exact Hw|].
  cbn [map] in He. injection He as He Hr. rewrite !replay_cons.
  apply IH; [exact Hr|].
  unfold erase_texts in *. injection Hw as Hp Hc.
  destruct e1 as [os1|], e2 as [os2|]; try discriminate He;
    unfold play, add, page_break; cbn [pages code].
  - cbn [erase_event] in He. injection He as He.
    rewrite !map_app. f_equal; [exact Hp|]. f_equal; assumption.
  - rewrite !map_app. f_equal. f_equal; [exact Hp|].
    cbn [map]. rewrite !map_app. f_equal. f_equal. exact Hc.
Qed.

Lemma same_shape_same_layout clock1 clock2 title1 title2
    (sections1 sections2 : list (str * list str)) wm1 wm2 :
  shape sections1 = shape sections2 ->
  map (map erase_text) (build_pdf_report clock1 title1 sections1 wm1) =
  map (map erase_text) (build_pdf_report clock2 title2 sections2 wm2).
Proof.
  intros H. rewrite !build_pdf_report_replay. unfold laid_out.
  pose proof (replay_erase_texts clock1 clock2 wm1 wm2
                (sections_events first_y sections1)
                (sections_events first_y sections2)
                (add (front_ops title1 wm1) Canvas)
                (add (front_ops title2 wm2) Canvas)
                (erase_sections_events sections1 sections2 first_y H)
                eq_refl) as R.
  unfold erase_texts in R. injection R as Rp Rc. unfold finish.
  rewrite !map_app. f_equal; [exact Rp|].
  cbn [map]. rewrite !map_app. f_equal. f_equal. exact Rc.
Qed.

(** X7. Where the calls are made depends on the input only through the
    number of lines each bullet is wrapped into: two inputs of the same
    shape give documents with the same pages and the same calls at the same
    positions, whatever the title, the watermark text, the headings, the
    characters of the bullets and the clock. *)
Theorem layout_depends_on_shape_only clock1 clock2 title1 title2
    (sections1 sections2 : list (str * list str)) wm1 wm2 :
  shape sections1 = shape sections2 ->
  map (map erase_text) (build_pdf_report clock1 title1 sections1 wm1) =
  map (map erase_text) (build_pdf_report clock2 title2 sections2 wm2).
Proof. apply same_shape_same_layout. Qed.

(** A bullet of two characters and one of a hundred are both one line. *)
Lemma layout_depends_on_shape_only_witness :
  shape [(lit "A", [lit "ab"])] = shape [(lit "Heading", [repeat x 100])]
  /\ map (map erase_text)
       (build_pdf_report noon (lit "T") [(lit "A", [lit "ab"])] (lit "W")) =
     map (map erase_text)
       (build_pdf_report (fun _ => []) (lit "Report")
          [(lit "Heading", [repeat x 100])] (lit "draft")).
Proof.
  split; [reflexivity|].
  apply (layout_depends_on_shape_only noon (fun _ => []) (lit "T") (lit "Report")
           [(lit "A", [lit "ab"])] [(lit "Heading", [repeat x 100])]
           (lit "W") (lit "draft")).
  reflexivity.
Defined.

(** * The Gantt table *)

Section GanttFacts.

Open Scope Z_scope.

Lemma date_add_in_range d n :
  0 < d + n <= MAXORDINAL -> date_add d n = inr (d + n).
Proof.
  intros [H1 H2]. unfold date_add. cbv zeta.
  apply Z.ltb_lt in H1. apply Z.leb_le in H2. now rewrite H1, H2.
Qed.

Lemma date_add_inr d n o :
  date_add d n = inr o -> 0 < d + n <= MAXORDINAL /\ o = d + n.
Proof.
  unfold date_add. cbv zeta.
  destruct (0 <? d + n) eqn:H1; [|discriminate].
  destruct (d + n <=? MAXORDINAL) eqn:H2; [|discriminate].
  cbn [andb]. intros H. injection H as H.
  apply Z.ltb_lt in H1. apply Z.leb_le in H2. now repeat split.
Qed.

(** The table of a project that starts on day [d]. *)
Lemma make_gantt_in_range d :
  0 < d -> d + 91 <= MAXORDINAL ->
  exists df, make_gantt d = inr df
    /\ map (fun r => (Start r - d, Finish r - d)) (rows df)
       = [(0, 14); (7, 21); (14, 35); (21, 42); (35, 56); (56, 84); (84, 91)].
Proof.
  intros H1 H2. unfold make_gantt. cbv zeta. unfold timedelta_weeks.
  repeat (rewrite date_add_in_range by lia; cbn [bind_exn]).
  eexists. split; [reflexivity|]. cbn [rows map Start Finish].
  repeat (f_equal; try lia).
Qed.

Lemma make_gantt_out_of_range d :
  ~ (0 < d /\ d + 91 <= MAXORDINAL) -> make_gantt d = inl OverflowError.
Proof.
  intros H. unfold make_gantt. cbv zeta. unfold timedelta_weeks.
  destruct (date_add d (7 * 0)) as [[]|s1] eqn:E0; [reflexivity|]. cbn [bind_exn].
  repeat match goal with
         | |- context [date_add d ?n] =>
             destruct (date_add d n) as [[]|?] eqn:?; [reflexivity|];
             cbn [bind_exn]
         end.
  exfalso. apply H.
  apply date_add_inr in E0.
  match goal with E : date_add d (7 * 13) = inr _ |- _ =>
    apply date_add_inr in E; lia end.
Qed.

End GanttFacts.

(** X8. [make_gantt] returns its table exactly when the project starts on a
    valid date at least 13 weeks (91 days) before [date.max]; on any later
    start the addition of the weeks raises OverflowError and no table comes
    out. *)
Theorem make_gantt_overflow (d : date) :
  ((exists df, make_gantt d = inr df) <-> (0 < d /\ d + 91 <= MAXORDINAL)%Z)
  /\ (~ (0 < d /\ d + 91 <= MAXORDINAL)%Z -> make_gantt d = inl OverflowError).
Proof.
  split; [split|].
  - intros [df H].
    destruct (Z_lt_dec 0 d) as [H1|H1];
      [destruct (Z_le_dec (d + 91) MAXORDINAL) as [H2|H2]|].
    + now split.
    + rewrite make_gantt_out_of_range in H by lia. discriminate H.
    + rewrite make_gantt_out_of_range in H by lia. discriminate H.
  - intros [H1 H2]. destruct (make_gantt_in_range d H1 H2) as [df [H _]].
    now exists df.
  - apply make_gantt_out_of_range.
Qed.

(** The project that starts on day 739000 has its table, the one that
    starts on the last day of the calendar has none. *)
Lemma make_gantt_overflow_witness :
  ~ (0 < MAXORDINAL /\ MAXORDINAL + 91 <= MAXORDINAL)%Z
  /\ make_gantt MAXORDINAL = inl OverflowError.
Proof.
  assert (H : ~ (0 < MAXORDINAL /\ MAXORDINAL + 91 <= MAXORDINAL)%Z)
    by (unfold MAXORDINAL; lia).
  split; [exact H|].
  exact (proj2 (make_gantt_overflow MAXORDINAL) H).
Defined.

(** X9. The table of [make_gantt] has seven tasks.  The first starts with
    the project and the last ends 13 weeks later; every task ends after it
    starts and lasts four weeks at most; the tasks follow one another
    without a gap: each starts after the one before has started and no
    later than it ends. *)
Theorem gantt_tasks_chain (d : date) (df : DataFrame) :
  make_gantt d = inr df ->
  length (rows df) = 7
  /\ Forall (fun r => Start r < Finish r <= Start r + 28)%Z (rows df)
  /\ option_map Start (hd_error (rows df)) = Some d
  /\ option_map Finish (hd_error (rev (rows df))) = Some (d + 91)%Z
  /\ chained (rows df).
Proof.
  intros H.
  assert (R : (0 < d /\ d + 91 <= MAXORDINAL)%Z).
  { destruct (Z_lt_dec 0 d) as [H1|H1];
      [destruct (Z_le_dec (d + 91) MAXORDINAL) as [H2|H2]|].
    - now split.
    - rewrite make_gantt_out_of_range in H by lia. discriminate H.
    - rewrite make_gantt_out_of_range in H by lia. discriminate H. }
  destruct R as [H1 H2]. revert H. unfold make_gantt. cbv zeta.
  unfold timedelta_weeks.
  repeat (rewrite date_add_in_range by lia; cbn [bind_exn]).
  intros H. injection H as H. subst df. cbn [rows].
  split; [reflexivity|]. split.
  - repeat constructor; cbn [Start Finish]; lia.
  - split; [cbn; f_equal; lia|]. split; [cbn; f_equal; lia|].
    cbn [chained Start Finish]. repeat split; lia.
Qed.

Lemma gantt_tasks_chain_witness :
  exists df, make_gantt 739000%Z = inr df
    /\ length (rows df) = 7
    /\ chained (rows df).
Proof.
  eexists. split; [reflexivity|].
  destruct (gantt_tasks_chain 739000%Z _ eq_refl) as [L [_ [_ [_ C]]]].
  split; [exact L | exact C].
Defined.

(** * The payload utilisation *)

Lemma ltb_leb (a b : float) : (a <? b)%float = true -> (a <=? b)%float = true.
Proof.
  rewrite ltb_spec, leb_spec. unfold SFltb, SFleb.
  destruct (SFcompare (Prim2SF a) (Prim2SF b)) as [[]|]; intros H;
    try reflexivity; discriminate H.
Qed.

(** The divisor [max(trailer_payload, 1e-9)] is never zero. *)
Lemma py_max_not_zero (t : float) : (py_max t 1e-9 =? 0)%float = false.
Proof.
  unfold py_max. destruct (t <? 1e-9)%float eqn:E; [reflexivity|].
  destruct (t =? 0)%float eqn:Z; [exfalso | reflexivity].
  rewrite ltb_spec in E. rewrite eqb_spec in Z.
  remember (Prim2SF 0%float) as zero eqn:Hz. vm_compute in Hz.
  remember (Prim2SF 1e-9%float) as tiny eqn:Ht. vm_compute in Ht.
  subst zero tiny. unfold SFeqb, SFltb in *.
  destruct (Prim2SF t) as [s|s| |s m e]; cbn [SFcompare] in Z.
  - cbn [SFcompare] in E. discriminate E.
  - destruct s; discriminate Z.
  - discriminate Z.
  - destruct s; discriminate Z.
Qed.

(** X10. The payload utilisation is computed for every density and every
    trailer payload, zero, negative, infinite or not a number included: the
    division never raises ZeroDivisionError, since the divisor is at least
    1e-9 or not a number, and the result is never above 100. *)
Theorem payload_util_capped (density trailer_payload : float) :
  exists u, payload_util density trailer_payload = Some u
    /\ (u <=? 100)%float = true.
Proof.
  unfold payload_util, truediv. rewrite py_max_not_zero.
  eexists. split; [reflexivity|].
  unfold py_min. destruct (_ <? 100)%float eqn:E.
  - apply ltb_leb, E.
  - reflexivity.
Qed.

(** * Every page starts at the top *)

Section Pacing.

Variable clock : nat -> str.

Lemma first_draw_app os1 os2 :
  first_draw (os1 ++ os2) =
  match first_draw os1 with
  | Some y => Some y
  | None => first_draw os2
  end.
Proof.
  unfold first_draw, drawn_ys. rewrite flat_map_app.
  destruct (flat_map _ os1); reflexivity.
Qed.

Lemma paced_app es1 : forall fresh es2,
  paced fresh es1 -> paced false es2 -> paced fresh (es1 ++ es2).
Proof.
  induction es1 as [|e rest IH]; intros fresh es2 H1 H2.
  - simpl in H1. subst fresh. exact H2.
  - destruct e as [os|]; cbn [app paced] in *.
    + destruct fresh; [destruct (first_draw os)|].
      * destruct H1 as [Hy H1]. split; [exact Hy | now apply IH].
      * now apply IH.
      * now apply IH.
    + destruct H1 as [Hf H1]. split; [exact Hf | now apply IH].
Qed.

Lemma wrap_bullet_cons b :
  exists first rest, wrap (bullet_text b) = first :: rest.
Proof.
  destruct (wrap (bullet_text b)) as [|first rest] eqn:E.
  - apply (f_equal (@length _)) in E. rewrite wrap_length in E.
    cbn [bullet_text length] in E.
    assert (1 <= (S (S (length b)) + 109) / 110)
      by (apply Nat.div_le_lower_bound; lia).
    lia.
  - now exists first, rest.
Qed.

Lemma paced_bullet_events y b : paced false (bullet_events y b).
Proof.
  unfold bullet_events, bullet_y0.
  destruct (wrap_bullet_cons b) as [first [rest E]]. rewrite E.
  destruct (PrimFloat.ltb y _); cbn; repeat split.
Qed.

Lemma paced_bullets_events bs : forall y, paced false (bullets_events y bs).
Proof.
  induction bs as [|b rest IH]; intros y; [reflexivity|].
  cbn [bullets_events]. apply paced_app; [apply paced_bullet_events | apply IH].
Qed.

Lemma paced_section_events y s : paced false (section_events y s).
Proof.
  unfold section_events, section_y0.
  destruct (PrimFloat.ltb y _); cbn [app paced].
  - split; [reflexivity|]. cbn. split; [reflexivity|].
    apply paced_bullets_events.
  - apply paced_bullets_events.
Qed.

Lemma paced_sections_events sections : forall y,
  paced false (sections_events y sections).
Proof.
  induction sections as [|s rest IH]; intros y; [reflexivity|].
  cbn [sections_events]. apply paced_app; [apply paced_section_events | apply IH].
Qed.

Lemma skipn_begun wm c os :
  begun wm c -> skipn 7 (c ++ os) = skipn 7 c ++ os.
Proof. intros [b [Hc _]]. subst c. reflexivity. Qed.

Lemma body_closing wm c stamp :
  begun wm c -> body (c ++ footer_ops wm page_w page_h stamp) = skipn 7 c.
Proof.
  intros [b [Hc _]]. subst c.
  rewrite <- (app_assoc (watermark_ops wm page_w page_h) b).
  rewrite body_stamped. reflexivity.
Qed.

Lemma replay_starts_at_top wm es : forall fresh w,
  Forall plain_event es -> paced fresh es ->
  in_shape wm w -> starts_at_top fresh w ->
  starts_at_top false (replay clock wm es w).
Proof.
  induction es as [|e rest IH]; intros fresh w Hes Hp Hw Ht.
  - simpl in Hp. subst fresh. exact Ht.
  - inversion Hes as [|? ? He Hrest]; subst. rewrite replay_cons.
    pose proof (play_shape clock wm e w He Hw) as Hw'.
    destruct Hw as [_ Hb]. destruct Ht as [Tp Tc].
    destruct e as [os|]; cbn [paced] in Hp.
    + assert (Hc : first_draw (skipn 7 (code (play clock wm w (Ops os)))) =
                   match first_draw (skipn 7 (code w)) with
                   | Some y => Some y
                   | None => first_draw os
                   end).
      { cbn [play add code]. rewrite (skipn_begun wm) by exact Hb.
        apply first_draw_app. }
      rewrite Tc in Hc.
      destruct fresh; [destruct (first_draw os) as [y0|] eqn:F|].
      * destruct Hp as [Hy Hp]. subst y0.
        apply (IH false); try assumption. split; assumption.
      * apply (IH true); try assumption. split; assumption.
      * apply (IH false); try assumption. split; assumption.
    + destruct Hp as [Hf Hp]. subst fresh.
      apply (IH true); try assumption. split.
      * cbn [play page_break pages]. apply Forall_app. split; [exact Tp|].
        constructor; [|constructor].
        rewrite (body_closing wm) by exact Hb. exact Tc.
      * reflexivity.
Qed.

End Pacing.

(** X11. On every page of the document the first string after the
    watermark is drawn at the top offset, 0.9 inch under the top edge: a
    page break is always followed by a heading or a line there, and no page
    is left without text. *)
Theorem every_page_starts_at_top clock title sections wm :
  Forall (fun p => first_draw (body p) = Some (page_h - 0.9 * inch)%float)
         (build_pdf_report clock title sections wm).
Proof.
  rewrite build_pdf_report_replay.
  pose proof (laid_out_shape clock title sections wm) as [_ Hb].
  destruct (replay_starts_at_top clock wm (sections_events first_y sections)
              false (add (front_ops title wm) Canvas)) as [Tp Tc].
  - apply plain_sections_events.
  - apply paced_sections_events.
  - split; [constructor|]. exists (title_ops title).
    split; [reflexivity|]. split; reflexivity.
  - split; [constructor | reflexivity].
  - unfold finish. apply Forall_app. split; [exact Tp|].
    constructor; [|constructor].
    rewrite (body_closing wm) by exact Hb. exact Tc.
Qed.

(** * The bullet glyph *)

(** X12. Every bullet, the empty string included, is drawn: its first line
    is the glyph, a space and the first 108 characters of the bullet, and
    the lines after it are the rest of the bullet in pieces of 110, without
    a glyph of their own. *)
Theorem bullet_first_line (b : str) :
  exists lines,
    wrap (bullet_text b) = (bullet_glyph :: 32%N :: firstn 108 b) :: lines
    /\ concat lines = skipn 108 b.
Proof.
  destruct (wrap_bullet_cons b) as [first [rest E]].
  pose proof (wrap_concat (bullet_text b)) as C. rewrite E in C.
  pose proof (wrap_chunks (bullet_text b)) as K. rewrite E in K.
  assert (F : first = bullet_glyph :: 32%N :: firstn 108 b).
  { destruct ((length (bullet_text b) + max_chars - 1) / max_chars) as [|n];
      [discriminate K|].
    cbn [seq map] in K. injection K as K _. rewrite K. reflexivity. }
  exists rest. split; [now rewrite E, F|].
  rewrite F in C. cbn [concat app bullet_text] in C.
  injection C as C.
  rewrite <- (firstn_skipn 108 b) in C at 2.
  now apply app_inv_head in C.
Qed.

(** * The export of the report *)

Lemma lines_of_length (text : str) n :
  (n - 1) * 110 < length text <= n * 110 -> length (wrap text) = n.
Proof.
  intros H. rewrite wrap_length. symmetry.
  apply (Nat.div_unique _ _ _ (length text + 109 - 110 * n)); lia.
Qed.

Lemma length_lit s : length (lit s) = String.length s.
Proof.
  unfold lit. rewrite length_map.
  induction s as [|a s IH]; [reflexivity|]. simpl. now rewrite IH.
Qed.

Ltac count_chars :=
  cbn [bullet_text length];
  repeat first [ rewrite length_app | rewrite length_lit ];
  cbn [String.length length]; lia.

Lemma export_sections_shape pilot_days contam_target payload_target
    weigh_time_target t_mo revenue_mo payload_util loads_mo :
  length pilot_days <= 6 ->
  Forall (fun field => length field <= 40)
    [contam_target; payload_target; weigh_time_target; t_mo; revenue_mo;
     payload_util; loads_mo] ->
  shape (export_sections pilot_days contam_target payload_target
           weigh_time_target t_mo revenue_mo payload_util loads_mo)
  = export_shape.
Proof.
  intros Hd Hf.
  repeat match goal with
         | H : Forall _ (_ :: _) |- _ => inversion H; clear H; subst
         end.
  unfold shape, export_sections, export_shape. cbn [map snd].
  repeat match goal with
         | |- _ :: _ = _ :: _ => f_equal
         | |- length (wrap _) = _ => apply lines_of_length; count_chars
         end.
Qed.

Lemma drawn_ys_erase os : drawn_ys (map erase_text os) = drawn_ys os.
Proof.
  induction os as [|o rest IH]; [reflexivity|].
  destruct o; cbn [map erase_text]; unfold drawn_ys in *; cbn [flat_map];
    now rewrite IH.
Qed.

Lemma body_map (f : op -> op) p : body (map f p) = map f (body p).
Proof. unfold body. now rewrite length_map, skipn_map, firstn_map. Qed.

Lemma drawn_ys_bodies_erase d :
  drawn_ys (concat (map body (map (map erase_text) d)))
  = drawn_ys (concat (map body d)).
Proof.
  induction d as [|p rest IH]; [reflexivity|].
  cbn [map concat]. unfold drawn_ys in *. rewrite !flat_map_app, IH.
  f_equal. rewrite body_map. apply drawn_ys_erase.
Qed.

(** X13. The report that the application exports is a single page, and each
    of its strings is drawn above the 1.3 inch threshold, whatever the
    program name, the site and the clock, as long as the formatted fields
    are short: six characters at most for the pilot days, forty for each of
    the others. *)
Theorem export_is_one_page clock program_name site_name
    pilot_days contam_target payload_target weigh_time_target
    t_mo revenue_mo payload_util loads_mo :
  length pilot_days <= 6 ->
  Forall (fun field => length field <= 40)
    [contam_target; payload_target; weigh_time_target; t_mo; revenue_mo;
     payload_util; loads_mo] ->
  let doc := pdf_bytes clock program_name site_name pilot_days contam_target
               payload_target weigh_time_target t_mo revenue_mo payload_util
               loads_mo in
  length doc = 1
  /\ Forall (fun y => (y <? 1.3 * inch)%float = false)
            (drawn_ys (concat (map body doc))).
Proof.
  intros Hd Hf. cbv zeta. unfold pdf_bytes.
  pose proof (export_sections_shape _ _ _ _ _ _ _ _ Hd Hf) as S1.
  assert (S0 : shape (export_sections [] [] [] [] [] [] [] []) = export_shape).
  { apply export_sections_shape; [cbn; lia|].
    repeat constructor; cbn; lia. }
  pose proof (same_shape_same_layout clock (fun _ => [])
                (export_title program_name site_name) []
                _ _ WATERMARK_TEXT [] (eq_trans S1 (eq_sym S0))) as E.
  split.
  - apply (f_equal (@length _)) in E. rewrite !length_map in E.
    etransitivity; [exact E|]. vm_compute. reflexivity.
  - pose proof (eq_trans
        (eq_sym (drawn_ys_bodies_erase _))
        (eq_trans (f_equal (fun d => drawn_ys (concat (map body d))) E)
                  (drawn_ys_bodies_erase _))) as Y.
    refine (eq_ind_r (fun l => Forall _ l) _ Y).
    vm_compute. repeat constructor.
Qed.

(** The fields of the default inputs: 90 days, 12.0 and 85 per cent, 10
    seconds, 80.0 tons, $23,200, 100 per cent, 4 loads. *)
Lemma export_is_one_page_witness :
  length (pdf_bytes noon
            (lit "Circular Strap Diversion Pilot") (lit "4-floor facility (pilot)")
            (lit "90") (lit "12.0") (lit "85") (lit "10")
            (lit "80.0") (lit "$23,200") (lit "100") (lit "4")) = 1.
Proof.
  refine (proj1 (export_is_one_page noon
            (lit "Circular Strap Diversion Pilot") (lit "4-floor facility (pilot)")
            (lit "90") (lit "12.0") (lit "85") (lit "10")
            (lit "80.0") (lit "$23,200") (lit "100") (lit "4") _ _)).
  - cbn. lia.
  - repeat constructor; cbn; lia.
Defined.

(** * Totality and the work done *)









(** Three hundred sections without a bullet take 1,063 calls on four pages
    for no bullet text at all. *)
Example three_hundred_headings :
  calls (build_pdf_report noon (lit "T") (repeat (lit "H", []) 300) (lit "W")) = 1063
  /\ total_chars (repeat (lit "H", []) 300) = 0.
Proof. split; vm_compute; reflexivity. Qed.
